(** * wrapper.js: the command-line adapter around the NOTAM decoder

    The script reads [process.argv[2]], loads that file as UTF-8 text, hands
    the text to [notamDecoder.decode] and prints the JSON form of the result
    on standard output; every failure is printed as [{"error": ...}] on
    standard error and the process exits with status 1.

    The development has three parts:
    - [JS]: the fragment of the language runtime the script relies on
      (values, [toString], [JSON.stringify], exceptions, [console],
      [process.exit]);
    - [Wrapper]: the script itself, statement by statement;
    - the properties of the script. *)

From Stdlib Require Import String Ascii List ZArith Lia Bool DecimalString.
Import ListNotations.
Local Open Scope string_scope.
Set Warnings "-register-all".

(* ================================================================== *)
(** ** The runtime fragment *)
(* ================================================================== *)

Module JS.

(** *** Text

    A character of a [string] stands for one UTF-16 code unit of a script
    string; the code units below 256 are the ones represented. *)

Definition chr (n : nat) : string := String (ascii_of_nat n) EmptyString.

Definition dq : string := chr 34.   (* the double quote *)
Definition bsl : string := chr 92.  (* the backslash *)
Definition nl : string := chr 10.   (* the line feed *)

Definition decimal (n : Z) : string := NilZero.string_of_int (Z.to_int n).

(** *** Values

    The values a decoder can hand back or throw, as far as the script can
    tell them apart: primitives, arrays, ordinary objects that inherit from
    [Object.prototype] directly, given by their own enumerable properties
    in enumeration order, and [Error] instances given
    by the [name] their prototype supplies and their [message].  [VNumber]
    stands for the Number values that are integers printed without an
    exponent.  Objects carrying functions (a [toJSON] or [toString] of
    their own that can be called), objects with another prototype or none,
    accessors and cyclic object graphs are outside this fragment. *)

Inductive value : Type :=
| VUndefined
| VNull
| VBoolean (b : bool)
| VNumber (n : Z)
| VBigInt (n : Z)
| VString (s : string)
| VArray (elements : list value)
| VObject (properties : list (string * value))
| VError (name message : string).

Definition TypeError (message : string) : value := VError "TypeError" message.

(** *** Results of built-in operations: a value, or a thrown value *)

Inductive result (A : Type) : Type :=
| Return (a : A)
| Raise (e : value).
Arguments Return {A} a.
Arguments Raise {A} e.

(** *** Script execution

    A statement runs against the events performed so far.  It completes
    normally, throws, or ends the process through [process.exit]. *)

Inductive stream : Type := stdout | stderr.

Inductive event : Type :=
| FsRead (path : string)
| Write (to : stream) (text : string).

Inductive completion (A : Type) : Type :=
| Normal (a : A)
| Throw (e : value)
| Exit (code : Z).
Arguments Normal {A} a.
Arguments Throw {A} e.
Arguments Exit {A} code.

Definition js (A : Type) : Type := list event -> completion A * list event.

Class Monad (M : Type -> Type) : Type :=
  { ret : forall {A}, A -> M A;
    bind : forall {A B}, M A -> (A -> M B) -> M B }.

#[export] Instance result_monad : Monad result :=
  {| ret := fun A a => Return a;
     bind := fun A B m k =>
       match m with
       | Return a => k a
       | Raise e => Raise e
       end |}.

#[export] Instance js_monad : Monad js :=
  {| ret := fun A a t => (Normal a, t);
     bind := fun A B m k t =>
       match m t with
       | (Normal a, t') => k a t'
       | (Throw e, t') => (Throw e, t')
       | (Exit c, t') => (Exit c, t')
       end |}.

Declare Scope js_scope.
Delimit Scope js_scope with js.
Notation "x <- m ;; k" := (bind m (fun x => k))
  (at level 100, m at next level, right associativity) : js_scope.
Notation "m ;; k" := (bind m (fun _ => k))
  (at level 100, right associativity) : js_scope.
Local Open Scope js_scope.

Definition throw {A} (e : value) : js A := fun t => (Throw e, t).

Definition lift {A} (r : result A) : js A :=
  match r with
  | Return a => ret a
  | Raise e => throw e
  end.

Definition emit (ev : event) : js unit := fun t => (Normal tt, (t ++ [ev])%list).

(** [try { body } catch (e) { handler e }]: only a thrown value reaches the
    handler; [process.exit] leaves the script at once. *)
Definition try_catch {A} (body : js A) (handler : value -> js A) : js A :=
  fun t =>
    match body t with
    | (Throw e, t') => handler e t'
    | r => r
    end.

Definition process_exit {A} (code : Z) : js A := fun t => (Exit code, t).

(** *** [toString] *)

(** [Error.prototype.toString] for a [name] and a [message] that are strings. *)
Definition Error_prototype_toString (name message : string) : string :=
  if String.eqb name "" then message
  else if String.eqb message "" then name
  else name ++ ": " ++ message.

Definition has_own (key : string) (properties : list (string * value)) : bool :=
  existsb (fun kv => String.eqb (fst kv) key) properties.

Definition object_Object : string := "[object Object]".

(** The abstract operation [ToString].  An array is joined with commas,
    [undefined] and [null] elements giving the empty string; an ordinary
    object goes through [Object.prototype.toString] unless a property of its
    own hides it, and in this fragment such a property cannot be called. *)
Fixpoint ToString (v : value) : result string :=
  match v with
  | VUndefined => Return "undefined"
  | VNull => Return "null"
  | VBoolean b => Return (if b then "true" else "false")
  | VNumber n => Return (decimal n)
  | VBigInt n => Return (decimal n)
  | VString s => Return s
  | VArray elements =>
      (fix join (xs : list value) : result string :=
         match xs with
         | [] => Return ""
         | x :: rest =>
             s <- match x with
                  | VUndefined | VNull => Return ""
                  | _ => ToString x
                  end ;;
             match rest with
             | [] => Return s
             | _ :: _ => r <- join rest ;; Return (s ++ "," ++ r)
             end
         end) elements
  | VObject properties =>
      if has_own "toString" properties
      then Raise (TypeError "Cannot convert object to primitive value")
      else Return object_Object
  | VError name message => Return (Error_prototype_toString name message)
  end.

(** The method call [e.toString()]. *)
Definition toString (e : value) : result value :=
  match e with
  | VUndefined =>
      Raise (TypeError "Cannot read properties of undefined (reading 'toString')")
  | VNull =>
      Raise (TypeError "Cannot read properties of null (reading 'toString')")
  | VObject properties =>
      if has_own "toString" properties
      then Raise (TypeError "e.toString is not a function")
      else Return (VString object_Object)
  | _ => s <- ToString e ;; Return (VString s)
  end.

(** *** [JSON.stringify] *)

Definition hex_digit (n : nat) : string :=
  match n with
  | 0 => "0" | 1 => "1" | 2 => "2" | 3 => "3" | 4 => "4" | 5 => "5"
  | 6 => "6" | 7 => "7" | 8 => "8" | 9 => "9" | 10 => "a" | 11 => "b"
  | 12 => "c" | 13 => "d" | 14 => "e" | _ => "f"
  end%nat.

Definition UnicodeEscape (c : ascii) : string :=
  let n := nat_of_ascii c in
  bsl ++ "u00" ++ hex_digit (n / 16) ++ hex_digit (n mod 16).

Definition quote_unit (c : ascii) : string :=
  let n := nat_of_ascii c in
  if (n =? 8)%nat then bsl ++ "b"
  else if (n =? 9)%nat then bsl ++ "t"
  else if (n =? 10)%nat then bsl ++ "n"
  else if (n =? 12)%nat then bsl ++ "f"
  else if (n =? 13)%nat then bsl ++ "r"
  else if (n =? 34)%nat then bsl ++ dq
  else if (n =? 92)%nat then bsl ++ bsl
  else if (n <? 32)%nat then UnicodeEscape c
  else String c EmptyString.

Fixpoint quote_units (s : string) : string :=
  match s with
  | EmptyString => EmptyString
  | String c rest => quote_unit c ++ quote_units rest
  end.

Definition QuoteJSONString (s : string) : string := dq ++ quote_units s ++ dq.

(** [SerializeJSONProperty] without replacer and without indentation:
    [None] is the result [undefined]. *)
Fixpoint SerializeJSONProperty (v : value) : result (option string) :=
  match v with
  | VUndefined => Return None
  | VNull => Return (Some "null")
  | VBoolean b => Return (Some (if b then "true" else "false"))
  | VNumber n => Return (Some (decimal n))
  | VBigInt _ => Raise (TypeError "Do not know how to serialize a BigInt")
  | VString s => Return (Some (QuoteJSONString s))
  | VArray elements =>
      partial <-
        (fix items (xs : list value) : result (list string) :=
           match xs with
           | [] => Return []
           | x :: rest =>
               strP <- SerializeJSONProperty x ;;
               more <- items rest ;;
               Return (match strP with
                       | Some s => s
                       | None => "null"
                       end :: more)
           end) elements ;;
      Return (Some ("[" ++ String.concat "," partial ++ "]"))
  | VObject properties =>
      partial <-
        (fix members (ps : list (string * value)) : result (list string) :=
           match ps with
           | [] => Return []
           | (P, x) :: rest =>
               strP <- SerializeJSONProperty x ;;
               more <- members rest ;;
               Return (match strP with
                       | Some s => (QuoteJSONString P ++ ":" ++ s) :: more
                       | None => more
                       end)
           end) properties ;;
      Return (Some ("{" ++ String.concat "," partial ++ "}"))
  | VError _ _ => Return (Some "{}")
  end.

Definition JSON_stringify (v : value) : result (option string) :=
  SerializeJSONProperty v.

(** *** [console]

    [console.log] and [console.error] with one argument that is a string or
    [undefined]: one write of the text and a line feed. *)
Definition display (x : option string) : string :=
  match x with
  | Some s => s
  | None => "undefined"
  end.

Definition console_log (x : option string) : js unit :=
  emit (Write stdout (display x ++ nl)).

Definition console_error (x : option string) : js unit :=
  emit (Write stderr (display x ++ nl)).

End JS.

(* ================================================================== *)
(** ** The script *)
(* ================================================================== *)

Module Wrapper.
Import JS.
Local Open Scope js_scope.

(** What [fs.readFileSync(path, 'utf8')] finds at a path: the text of the
    file, or the failure the file system reports, an [Error] instance with
    its [name] and [message]. *)
Inductive read_result : Type :=
| FileText (text : string)
| FsFailure (name message : string).

Section Adapter.

(** The surroundings of one invocation: [process.argv], the file system
    as [fs.readFileSync] sees it, and the [decode] function exported by
    [./notam-decoder.js], which returns a value or throws one.  The two
    [require] lines bind [fs] and [notamDecoder] to these. *)
Variable argv : list string.
Variable readFileSync : string -> read_result.
Variable decode : string -> result value.

(** [process.argv[i]]: [None] is [undefined]. *)
Definition process_argv (i : nat) : option string := nth_error argv i.

(** [!x] for [x] a string or [undefined]: true exactly when [x] is
    [undefined] or the empty string. *)
Definition falsy (x : option string) : bool :=
  match x with
  | None => true
  | Some s => String.eqb s ""
  end.

Definition ERR_INVALID_ARG_TYPE : value :=
  TypeError ("The " ++ dq ++ "path" ++ dq ++ " argument must be of type string"
             ++ " or an instance of Buffer or URL. Received undefined").

(** [fs.readFileSync(path, 'utf8')]: the argument is checked before the
    file system is touched. *)
Definition fs_readFileSync (path : option string) : js string :=
  match path with
  | None => throw ERR_INVALID_ARG_TYPE
  | Some p =>
      emit (FsRead p) ;;
      match readFileSync p with
      | FileText text => ret text
      | FsFailure name message => throw (VError name message)
      end
  end.

Definition notamDecoder_decode (rawNotam : string) : js value :=
  lift (decode rawNotam).

Definition no_input : string := "No input file provided".

(** The script, top to bottom. *)
Definition wrapper : js unit :=
  let inputPath := process_argv 2 in
  (if falsy inputPath then
     s <- lift (JSON_stringify (VObject [("error", VString no_input)])) ;;
     console_error s ;;
     process_exit 1
   else ret tt) ;;
  try_catch
    (rawNotam <- fs_readFileSync inputPath ;;
     decoded <- notamDecoder_decode rawNotam ;;
     s <- lift (JSON_stringify decoded) ;;
     console_log s)
    (fun e =>
       message <- lift (toString e) ;;
       s <- lift (JSON_stringify (VObject [("error", message)])) ;;
       console_error s ;;
       process_exit 1).

(** One invocation: the script run from an empty history. *)
Definition run : completion unit * list event := wrapper [].

End Adapter.

(** *** What an invocation leaves behind *)

(** The text the script wrote on a stream, in order. *)
Fixpoint written (to : stream) (t : list event) : string :=
  match t with
  | [] => ""
  | Write s text :: rest =>
      match s, to with
      | stdout, stdout | stderr, stderr => text ++ written to rest
      | _, _ => written to rest
      end
  | FsRead _ :: rest => written to rest
  end.

(** The paths handed to the file system, in order. *)
Fixpoint reads (t : list event) : list string :=
  match t with
  | [] => []
  | FsRead p :: rest => p :: reads rest
  | Write _ _ :: rest => reads rest
  end.

(** The writes, in order. *)
Fixpoint writes (t : list event) : list (stream * string) :=
  match t with
  | [] => []
  | Write s text :: rest => (s, text) :: writes rest
  | FsRead _ :: rest => writes rest
  end.

(** The exit status of the process: 0 when the script runs to its end, the
    argument of [process.exit], and 1 when a thrown value is caught by
    nothing and the runtime ends the process with its own report. *)
Definition exit_status (c : completion unit) : Z :=
  match c with
  | Normal _ => 0
  | Exit code => code
  | Throw _ => 1
  end%Z.

(** The script ended on a thrown value that nothing caught. *)
Definition uncaught (c : completion unit) : bool :=
  match c with
  | Throw _ => true
  | _ => false
  end.

(** The JSON text [{"error":<message as a JSON string>}], and the line the
    script prints for it. *)
Definition error_object (message : string) : string :=
  "{" ++ dq ++ "error" ++ dq ++ ":" ++ QuoteJSONString message ++ "}".

Definition envelope (message : string) : string := error_object message ++ nl.

(** What the [try] block throws, if it throws: the failure of the read, of
    the decoder, or of the serialization. *)
Inductive try_throws readFileSync decode (p : string) (e : value) : Prop :=
| read_throws name message :
    readFileSync p = FsFailure name message ->
    e = VError name message ->
    try_throws readFileSync decode p e
| decode_throws T :
    readFileSync p = FileText T ->
    decode T = Raise e ->
    try_throws readFileSync decode p e
| stringify_throws T V :
    readFileSync p = FileText T ->
    decode T = Return V ->
    JSON_stringify V = Raise e ->
    try_throws readFileSync decode p e.

(** [m] occurs in [s]. *)
Definition contains (m s : string) : Prop :=
  exists before after, s = before ++ m ++ after.

(** *** Sample surroundings, used to run the script on concrete inputs *)

Definition argv_bare : list string := ["node"; "wrapper.js"].
Definition argv_file : list string := ["node"; "wrapper.js"; "notam.txt"].
Definition argv_empty : list string := ["node"; "wrapper.js"; ""].

Definition ENOENT (p : string) : read_result :=
  FsFailure "Error" ("ENOENT: no such file or directory, open '" ++ p ++ "'").

(** A disk holding the single file [notam.txt]. *)
Definition disk (p : string) : read_result :=
  if String.eqb p "notam.txt" then FileText "A1234/20 NOTAMN" else ENOENT p.

(** The same file next to a second one. *)
Definition disk' (p : string) : read_result :=
  if String.eqb p "notam.txt" then FileText "A1234/20 NOTAMN"
  else if String.eqb p "other.txt" then FileText "B0001/21 NOTAMC"
  else ENOENT p.

Definition empty_disk (p : string) : read_result := ENOENT p.

(** Decoders: one that succeeds, one that rejects its input with an
    [Error], one whose result holds a BigInt, and two that throw
    [null] and [undefined]. *)
Definition decode_raw (rawText : string) : result value :=
  Return (VObject [("raw", VString rawText); ("series", VString "A")]).

Definition decode_rejects (rawText : string) : result value :=
  Raise (VError "SyntaxError" "unexpected end of NOTAM").

Definition decode_bigint (rawText : string) : result value :=
  Return (VObject [("number", VBigInt 1234)]).

Definition decode_throws_null (rawText : string) : result value :=
  Raise VNull.

Definition decode_throws_undefined (rawText : string) : result value :=
  Raise VUndefined.

(** More surroundings: a longer command line, and decoders that throw a
    string and return text with a line feed. *)
Definition argv_long : list string :=
  ["/usr/bin/node"; "/opt/notam/wrapper.js"; "notam.txt"; "--pretty"; "b.txt"].

Definition decode_throws_string (rawText : string) : result value :=
  Raise (VString "bad Q-line").

Definition decode_two_lines (rawText : string) : result value :=
  Return (VObject [("text", VString ("RWY 09" ++ nl ++ "CLSD"))]).

(** A decoder that agrees with [decode_raw] on the text of [notam.txt] and
    throws [null] on every other text. *)
Definition decode_raw_only_notam (rawText : string) : result value :=
  if String.eqb rawText "A1234/20 NOTAMN" then decode_raw rawText
  else Raise VNull.

(** The text holds no control character: no code unit below 32, so no line
    feed, carriage return, tab or escape. *)
Fixpoint no_control (s : string) : bool :=
  match s with
  | EmptyString => true
  | String c rest => (32 <=? nat_of_ascii c)%nat && no_control rest
  end.

(** Reading back what [quote_units] wrote, up to the closing double quote:
    the inverse used to show that the quoting loses nothing. *)
Definition hex_value (c : ascii) : nat :=
  let n := nat_of_ascii c in
  if (n <? 58)%nat then n - 48 else n - 87.

Fixpoint unquote_units (s : string) : string :=
  match s with
  | EmptyString => EmptyString
  | String c rest =>
      if Ascii.eqb c "034"%char then EmptyString
      else if Ascii.eqb c "092"%char then
        match rest with
        | EmptyString => EmptyString
        | String e rest' =>
            if Ascii.eqb e "b"%char then String "008"%char (unquote_units rest')
            else if Ascii.eqb e "t"%char then String "009"%char (unquote_units rest')
            else if Ascii.eqb e "n"%char then String "010"%char (unquote_units rest')
            else if Ascii.eqb e "f"%char then String "012"%char (unquote_units rest')
            else if Ascii.eqb e "r"%char then String "013"%char (unquote_units rest')
            else if Ascii.eqb e "u"%char then
              match rest' with
              | String _ (String _ (String h (String l rest''))) =>
                  String (ascii_of_nat (16 * hex_value h + hex_value l))
                         (unquote_units rest'')
              | _ => EmptyString
              end
            else String e (unquote_units rest')
        end
      else String c (unquote_units rest)
  end.

End Wrapper.


(* ================================================================== *)
(** ** Properties *)
(* ================================================================== *)

Import JS Wrapper.
Local Open Scope js_scope.

(** *** Text *)

Lemma append_nil_r (s : string) : s ++ "" = s.
Proof. induction s as [|c s IH]; simpl; [reflexivity | now rewrite IH]. Qed.

Lemma append_assoc (a b c : string) : (a ++ b) ++ c = a ++ b ++ c.
Proof. induction a as [|x a IH]; simpl; [reflexivity | now rewrite IH]. Qed.

Lemma line_not_empty (s : string) : s ++ nl <> "".
Proof. destruct s; discriminate. Qed.

Lemma Error_toString_contains_message (name message : string) :
  contains message (Error_prototype_toString name message).
Proof.
  unfold Error_prototype_toString.
  destruct (String.eqb_spec name "") as [_|_].
  - exists "", "". simpl. now rewrite append_nil_r.
  - destruct (String.eqb_spec message "") as [->|_].
    + exists name, "". simpl. now rewrite append_nil_r.
    + exists (name ++ ": "), "". now rewrite append_nil_r, append_assoc.
Qed.

(** *** The runtime fragment *)

Lemma stringify_error_object (message : string) :
  JSON_stringify (VObject [("error", VString message)])
  = Return (Some (error_object message)).
Proof. reflexivity. Qed.

(** [e.toString()] gives a string whenever it gives anything. *)
Lemma toString_returns_string (e v : value) :
  toString e = Return v -> exists s, v = VString s.
Proof.
  destruct e; simpl; try discriminate;
    try (intros H; injection H as <-; eexists; reflexivity).
  - destruct (_ elements) as [s|e'] in |- *; simpl; try discriminate.
    intros H; injection H as <-. now exists s.
  - destruct (has_own _ _); try discriminate.
    intros H; injection H as <-. now eexists.
Qed.

(** [JSON.stringify] throws for one reason only in this fragment: a BigInt
    somewhere in the value. *)
Lemma stringify_raises_TypeError (v : value) (e : value) :
  JSON_stringify v = Raise e ->
  e = TypeError "Do not know how to serialize a BigInt".
Proof.
  unfold JSON_stringify. revert v e.
  fix IH 1. intros v e.
  destruct v as [ | | b | n | n | s | xs | ps | name message ];
    simpl; try discriminate.
  - intros H. now injection H as <-.
  - match goal with |- context [?f xs] => set (items := f) end.
    assert (Hitems : forall l, items xs = Raise l ->
                       l = TypeError "Do not know how to serialize a BigInt").
    { induction xs as [|x xs IHxs]; intros l; simpl; try discriminate.
      destruct (SerializeJSONProperty x) as [strP|e1] eqn:Ex; simpl.
      - destruct (items xs) as [more|e2]; simpl; try discriminate.
        intros H. injection H as <-. now apply IHxs.
      - intros H. injection H as <-. now apply (IH x). }
    destruct (items xs) as [partial|e1]; simpl; try discriminate.
    intros H. injection H as <-. now apply Hitems.
  - match goal with |- context [?f ps] => set (members := f) end.
    assert (Hmembers : forall l, members ps = Raise l ->
                         l = TypeError "Do not know how to serialize a BigInt").
    { induction ps as [|[P x] ps IHps]; intros l; simpl; try discriminate.
      destruct (SerializeJSONProperty x) as [strP|e1] eqn:Ex; simpl.
      - destruct (members ps) as [more|e2]; simpl; try discriminate.
        intros H. injection H as <-. now apply IHps.
      - intros H. injection H as <-. now apply (IH x). }
    destruct (members ps) as [partial|e1]; simpl; try discriminate.
    intros H. injection H as <-. now apply Hmembers.
Qed.

(** *** Running the script *)

Ltac script :=
  unfold fs_readFileSync, notamDecoder_decode,
    try_catch, console_log, console_error, process_exit, emit, lift, throw;
  cbn -[toString JSON_stringify].

Ltac enter H := unfold run, wrapper, process_argv; rewrite H.

(** A present, non-empty path passes the guard. *)
Lemma falsy_path (p : string) : p <> "" -> falsy (Some p) = false.
Proof. intros Hp. simpl. now apply String.eqb_neq. Qed.

(** The guard's branch: one line on standard error, then [process.exit(1)],
    and nothing of the rest of the script runs. *)
Lemma run_guard (argv : list string) readFileSync decode :
  falsy (nth_error argv 2) = true ->
  run argv readFileSync decode
  = (Exit 1, [Write stderr (envelope no_input)]).
Proof. intros H. enter H. reflexivity. Qed.

(** The [try] block ran to its end. *)
Lemma run_success (argv : list string) readFileSync decode p T V r :
  nth_error argv 2 = Some p -> p <> "" ->
  readFileSync p = FileText T ->
  decode T = Return V ->
  JSON_stringify V = Return r ->
  run argv readFileSync decode
  = (Normal tt, [FsRead p; Write stdout (display r ++ nl)]).
Proof.
  intros Ha Hp Hr Hd Hs. enter Ha. rewrite (falsy_path p Hp). script.
  rewrite Hr. script. rewrite Hd. script. rewrite Hs. reflexivity.
Qed.

(** The handler ran to its end. *)
Lemma run_caught (argv : list string) readFileSync decode p e message :
  nth_error argv 2 = Some p -> p <> "" ->
  try_throws readFileSync decode p e ->
  toString e = Return (VString message) ->
  run argv readFileSync decode
  = (Exit 1, [FsRead p; Write stderr (envelope message)]).
Proof.
  intros Ha Hp Ht Hm. enter Ha. rewrite (falsy_path p Hp). script.
  destruct Ht as [name msg Hr ->|T Hr Hd|T V Hr Hd Hs];
    rewrite Hr; script;
    try (rewrite Hd; script); try (rewrite Hs; script);
    rewrite Hm; reflexivity.
Qed.

(** The handler itself threw: nothing is written and the thrown value
    leaves the script. *)
Lemma run_handler_throws (argv : list string) readFileSync decode p e e' :
  nth_error argv 2 = Some p -> p <> "" ->
  try_throws readFileSync decode p e ->
  toString e = Raise e' ->
  run argv readFileSync decode = (Throw e', [FsRead p]).
Proof.
  intros Ha Hp Ht Hm. enter Ha. rewrite (falsy_path p Hp). script.
  destruct Ht as [name msg Hr ->|T Hr Hd|T V Hr Hd Hs];
    rewrite Hr; script;
    try (rewrite Hd; script); try (rewrite Hs; script);
    rewrite Hm; reflexivity.
Qed.

(** Every invocation is one of four runs: the guard fired; the [try] block
    ran to its end; the handler ran to its end; the handler threw. *)
Lemma run_cases (argv : list string) readFileSync decode :
  let r := run argv readFileSync decode in
  (falsy (nth_error argv 2) = true
   /\ r = (Exit 1, [Write stderr (envelope no_input)]))
  \/ exists p, nth_error argv 2 = Some p /\ p <> "" /\
       ((exists x, r = (Normal tt, [FsRead p; Write stdout (display x ++ nl)]))
        \/ (exists e message,
              try_throws readFileSync decode p e
              /\ toString e = Return (VString message)
              /\ r = (Exit 1, [FsRead p; Write stderr (envelope message)]))
        \/ (exists e e',
              try_throws readFileSync decode p e
              /\ toString e = Raise e'
              /\ r = (Throw e', [FsRead p]))).
Proof.
  intros r. subst r.
  destruct (falsy (nth_error argv 2)) eqn:Hguard.
  { left. split; [reflexivity | now apply run_guard]. }
  right. destruct (nth_error argv 2) as [p|] eqn:Ha; [|discriminate Hguard].
  assert (Hp : p <> "") by (now apply String.eqb_neq).
  exists p. split; [reflexivity|]. split; [exact Hp|].
  assert (Hthrown : forall e, try_throws readFileSync decode p e ->
    (exists message, toString e = Return (VString message)
       /\ run argv readFileSync decode
          = (Exit 1, [FsRead p; Write stderr (envelope message)]))
    \/ (exists e', toString e = Raise e'
       /\ run argv readFileSync decode = (Throw e', [FsRead p]))).
  { intros e Ht. destruct (toString e) as [v|e'] eqn:Hm.
    - destruct (toString_returns_string e v Hm) as [message ->].
      left. exists message. split; [reflexivity|].
      now apply (run_caught argv readFileSync decode p e message).
    - right. exists e'. split; [reflexivity|].
      now apply (run_handler_throws argv readFileSync decode p e e'). }
  assert (Hcase : (exists x, run argv readFileSync decode
                    = (Normal tt, [FsRead p; Write stdout (display x ++ nl)]))
                  \/ exists e, try_throws readFileSync decode p e).
  { destruct (readFileSync p) as [T|name message] eqn:Hr.
    - destruct (decode T) as [V|e] eqn:Hd.
      + destruct (JSON_stringify V) as [x|e] eqn:Hs.
        * left. exists x.
          now apply (run_success argv readFileSync decode p T V x).
        * right. exists e. now apply (stringify_throws _ _ _ _ T V).
      + right. exists e. now apply (decode_throws _ _ _ _ T).
    - right. exists (VError name message).
      now apply (read_throws _ _ _ _ name message). }
  destruct Hcase as [Hok|[e Ht]]; [now left|].
  destruct (Hthrown e Ht) as [[message [Hm Hrun]]|[e' [Hm Hrun]]].
  - right. left. now exists e, message.
  - right. right. now exists e, e'.
Qed.

(** *** The guard *)

(** C1. When [process.argv] has no element after the script's name, the
    script writes the line [{"error":"No input file provided"}] to standard
    error and nothing to standard output, reads no file, and ends the
    process with status 1. *)
Theorem no_path_argument (argv : list string) readFileSync decode :
  nth_error argv 2 = None ->
  let r := run argv readFileSync decode in
  written stderr (snd r)
  = "{" ++ dq ++ "error" ++ dq ++ ":" ++ dq ++ "No input file provided" ++ dq
    ++ "}" ++ nl
  /\ written stdout (snd r) = ""
  /\ reads (snd r) = []
  /\ fst r = Exit 1
  /\ exit_status (fst r) = 1%Z.
Proof.
  intros Ha r. subst r.
  rewrite run_guard by (now rewrite Ha).
  repeat split.
Qed.

Lemma no_path_argument_witness :
  let r := run argv_bare disk decode_raw in
  written stderr (snd r)
  = "{" ++ dq ++ "error" ++ dq ++ ":" ++ dq ++ "No input file provided" ++ dq
    ++ "}" ++ nl
  /\ written stdout (snd r) = ""
  /\ reads (snd r) = []
  /\ fst r = Exit 1
  /\ exit_status (fst r) = 1%Z.
Proof. apply (no_path_argument argv_bare disk decode_raw). reflexivity. Defined.

(** C9. A path argument that is the empty string is handled as a missing
    one: the same line on standard error, nothing on standard output, no
    file read, status 1. *)
Theorem empty_path_argument (argv : list string) readFileSync decode :
  nth_error argv 2 = Some "" ->
  let r := run argv readFileSync decode in
  written stderr (snd r)
  = "{" ++ dq ++ "error" ++ dq ++ ":" ++ dq ++ "No input file provided" ++ dq
    ++ "}" ++ nl
  /\ written stdout (snd r) = ""
  /\ reads (snd r) = []
  /\ fst r = Exit 1
  /\ exit_status (fst r) = 1%Z.
Proof.
  intros Ha r. subst r.
  rewrite run_guard by (now rewrite Ha).
  repeat split.
Qed.

Lemma empty_path_argument_witness :
  let r := run argv_empty disk decode_raw in
  written stderr (snd r)
  = "{" ++ dq ++ "error" ++ dq ++ ":" ++ dq ++ "No input file provided" ++ dq
    ++ "}" ++ nl
  /\ written stdout (snd r) = ""
  /\ reads (snd r) = []
  /\ fst r = Exit 1
  /\ exit_status (fst r) = 1%Z.
Proof. apply (empty_path_argument argv_empty disk decode_raw). reflexivity. Defined.

(** *** The [try] block *)

(** C2. When the path names a file with text [T], the decoder maps [T] to
    [V] and [s] is the JSON text of [V], the script writes [s] and a line
    feed to standard output, nothing to standard error, never calls
    [process.exit], and the exit status is 0. *)
Theorem successful_decode (argv : list string) readFileSync decode p T V s :
  nth_error argv 2 = Some p -> p <> "" ->
  readFileSync p = FileText T ->
  decode T = Return V ->
  JSON_stringify V = Return (Some s) ->
  let r := run argv readFileSync decode in
  written stdout (snd r) = s ++ nl
  /\ written stderr (snd r) = ""
  /\ fst r = Normal tt
  /\ exit_status (fst r) = 0%Z.
Proof.
  intros Ha Hp Hr Hd Hs r. subst r.
  rewrite (run_success argv readFileSync decode p T V (Some s)) by assumption.
  simpl. rewrite append_nil_r. repeat split.
Qed.

Lemma successful_decode_witness :
  let r := run argv_file disk decode_raw in
  written stdout (snd r)
  = ("{" ++ dq ++ "raw" ++ dq ++ ":" ++ dq ++ "A1234/20 NOTAMN" ++ dq ++ ","
     ++ dq ++ "series" ++ dq ++ ":" ++ dq ++ "A" ++ dq ++ "}") ++ nl
  /\ written stderr (snd r) = ""
  /\ fst r = Normal tt
  /\ exit_status (fst r) = 0%Z.
Proof.
  apply (successful_decode argv_file disk decode_raw "notam.txt"
           "A1234/20 NOTAMN"
           (VObject [("raw", VString "A1234/20 NOTAMN"); ("series", VString "A")]));
    [reflexivity | discriminate | reflexivity | reflexivity | reflexivity].
Defined.

(** C3. When the read of the named file fails, the script writes the line
    [{"error":<m>}] to standard error, [m] being what [toString()] gives for
    the failure, writes nothing to standard output, and ends the process
    with status 1. *)
Theorem read_failure (argv : list string) readFileSync decode p name message :
  nth_error argv 2 = Some p -> p <> "" ->
  readFileSync p = FsFailure name message ->
  let r := run argv readFileSync decode in
  let m := Error_prototype_toString name message in
  toString (VError name message) = Return (VString m)
  /\ written stderr (snd r) = error_object m ++ nl
  /\ written stdout (snd r) = ""
  /\ fst r = Exit 1
  /\ exit_status (fst r) = 1%Z.
Proof.
  intros Ha Hp Hr r m. subst r m.
  rewrite (run_caught argv readFileSync decode p (VError name message)
             (Error_prototype_toString name message));
    try assumption; try reflexivity.
  - simpl. rewrite append_nil_r. repeat split.
  - now apply (read_throws _ _ _ _ name message).
Qed.

Lemma read_failure_witness :
  let r := run argv_file empty_disk decode_raw in
  let m := "Error: ENOENT: no such file or directory, open 'notam.txt'" in
  toString (VError "Error" "ENOENT: no such file or directory, open 'notam.txt'")
  = Return (VString m)
  /\ written stderr (snd r) = error_object m ++ nl
  /\ written stdout (snd r) = ""
  /\ fst r = Exit 1
  /\ exit_status (fst r) = 1%Z.
Proof.
  apply (read_failure argv_file empty_disk decode_raw "notam.txt" "Error"
           "ENOENT: no such file or directory, open 'notam.txt'");
    [reflexivity | discriminate | reflexivity].
Defined.

(** C4. When the file is read and the decoder throws an [Error] with
    message [M], the script writes the line [{"error":<m>}] to standard
    error, where [m] is what [toString()] gives for the thrown error and
    [M] occurs in [m]; it writes nothing to standard output and ends the
    process with status 1. *)
Theorem decode_failure (argv : list string) readFileSync decode p T name M :
  nth_error argv 2 = Some p -> p <> "" ->
  readFileSync p = FileText T ->
  decode T = Raise (VError name M) ->
  let r := run argv readFileSync decode in
  exists m,
    toString (VError name M) = Return (VString m)
    /\ contains M m
    /\ written stderr (snd r) = error_object m ++ nl
    /\ written stdout (snd r) = ""
    /\ fst r = Exit 1
    /\ exit_status (fst r) = 1%Z.
Proof.
  intros Ha Hp Hr Hd r. subst r.
  exists (Error_prototype_toString name M).
  split; [reflexivity|].
  split; [apply Error_toString_contains_message|].
  rewrite (run_caught argv readFileSync decode p (VError name M)
             (Error_prototype_toString name M));
    try assumption; try reflexivity.
  - simpl. rewrite append_nil_r. repeat split.
  - now apply (decode_throws _ _ _ _ T).
Qed.

Lemma decode_failure_witness :
  let r := run argv_file disk decode_rejects in
  exists m,
    toString (VError "SyntaxError" "unexpected end of NOTAM")
    = Return (VString m)
    /\ contains "unexpected end of NOTAM" m
    /\ written stderr (snd r) = error_object m ++ nl
    /\ written stdout (snd r) = ""
    /\ fst r = Exit 1
    /\ exit_status (fst r) = 1%Z.
Proof.
  apply (decode_failure argv_file disk decode_rejects "notam.txt"
           "A1234/20 NOTAMN" "SyntaxError" "unexpected end of NOTAM");
    [reflexivity | discriminate | reflexivity | reflexivity].
Defined.

(** C10. When the file is read and decoded but [JSON.stringify] throws on
    the decoded value, the handler runs: the script writes the line
    [{"error":<m>}] to standard error, [m] being what [toString()] gives for
    the thrown error, writes nothing to standard output, and ends the
    process with status 1. *)
Theorem serialization_failure (argv : list string) readFileSync decode p T V e :
  nth_error argv 2 = Some p -> p <> "" ->
  readFileSync p = FileText T ->
  decode T = Return V ->
  JSON_stringify V = Raise e ->
  let r := run argv readFileSync decode in
  exists m,
    toString e = Return (VString m)
    /\ written stderr (snd r) = error_object m ++ nl
    /\ written stdout (snd r) = ""
    /\ fst r = Exit 1
    /\ exit_status (fst r) = 1%Z.
Proof.
  intros Ha Hp Hr Hd Hs r. subst r.
  pose proof (stringify_raises_TypeError V e Hs) as He.
  exists "TypeError: Do not know how to serialize a BigInt".
  split; [now rewrite He|].
  rewrite (run_caught argv readFileSync decode p e
             "TypeError: Do not know how to serialize a BigInt");
    try assumption.
  - simpl. repeat split.
  - now apply (stringify_throws _ _ _ _ T V).
  - now rewrite He.
Qed.

Lemma serialization_failure_witness :
  let r := run argv_file disk decode_bigint in
  exists m,
    toString (TypeError "Do not know how to serialize a BigInt")
    = Return (VString m)
    /\ written stderr (snd r) = error_object m ++ nl
    /\ written stdout (snd r) = ""
    /\ fst r = Exit 1
    /\ exit_status (fst r) = 1%Z.
Proof.
  apply (serialization_failure argv_file disk decode_bigint "notam.txt"
           "A1234/20 NOTAMN" (VObject [("number", VBigInt 1234)])
           (TypeError "Do not know how to serialize a BigInt"));
    [reflexivity | discriminate | reflexivity | reflexivity | reflexivity].
Defined.

(** *** All invocations *)

(** C7. Two invocations with the same arguments and the same decoder, on
    file systems that agree at the input path, write the same text to
    standard output and to standard error and end with the same status. *)
Theorem two_runs_agree (argv : list string) fs1 fs2 decode :
  (forall p, nth_error argv 2 = Some p -> fs1 p = fs2 p) ->
  let r1 := run argv fs1 decode in
  let r2 := run argv fs2 decode in
  written stdout (snd r1) = written stdout (snd r2)
  /\ written stderr (snd r1) = written stderr (snd r2)
  /\ exit_status (fst r1) = exit_status (fst r2).
Proof.
  intros Hfs r1 r2.
  assert (Hrun : r1 = r2).
  { subst r1 r2. unfold run, wrapper, process_argv.
    destruct (nth_error argv 2) as [p|] eqn:Ha; [|reflexivity].
    destruct (falsy (Some p)); [reflexivity|].
    script. now rewrite (Hfs p eq_refl). }
  now rewrite Hrun.
Qed.

Lemma two_runs_agree_witness :
  let r1 := run argv_file disk decode_raw in
  let r2 := run argv_file disk' decode_raw in
  written stdout (snd r1) = written stdout (snd r2)
  /\ written stderr (snd r1) = written stderr (snd r2)
  /\ exit_status (fst r1) = exit_status (fst r2).
Proof.
  apply (two_runs_agree argv_file disk disk' decode_raw).
  intros p Hp. simpl in Hp. injection Hp as <-. reflexivity.
Defined.

(** C8. In every invocation the script reads the file system at most once,
    and only at the path given as argument; it writes at most once; and its
    events are that read, if any, followed by that write, if any. *)
Theorem effects_are_bounded (argv : list string) readFileSync decode :
  let t := snd (run argv readFileSync decode) in
  (length (reads t) <= 1)%nat
  /\ (forall p, In p (reads t) -> nth_error argv 2 = Some p /\ p <> "")
  /\ (length (writes t) <= 1)%nat
  /\ t = (map FsRead (reads t)
          ++ map (fun w => Write (fst w) (snd w)) (writes t))%list.
Proof.
  intros t. subst t.
  destruct (run_cases argv readFileSync decode)
    as [[_ Hrun]|[p [Ha [Hp [[x Hrun]|[[e [m [_ [_ Hrun]]]]|[e [e' [_ [_ Hrun]]]]]]]]]];
    rewrite Hrun; cbn [fst snd reads writes length map app];
    (split; [lia|]); (split; [|split; [lia|reflexivity]]);
    intros q Hq; cbn [In] in Hq;
    try contradiction; destruct Hq as [<-|[]]; now split.
Qed.

(** A decoded value that [JSON.stringify] maps to [undefined] is printed
    as the word [undefined]; the script still ends normally. *)
Lemma undefined_result (argv : list string) readFileSync decode p T V :
  nth_error argv 2 = Some p -> p <> "" ->
  readFileSync p = FileText T ->
  decode T = Return V ->
  JSON_stringify V = Return None ->
  run argv readFileSync decode
  = (Normal tt, [FsRead p; Write stdout ("undefined" ++ nl)]).
Proof.
  intros Ha Hp Hr Hd Hs.
  now rewrite (run_success argv readFileSync decode p T V None).
Qed.

(** *** When the handler itself throws *)

(** [e.toString()] returns for every thrown primitive other than
    [undefined] and [null], and for every [Error]. *)
Lemma toString_returns (e : value) :
  match e with
  | VBoolean _ | VNumber _ | VBigInt _ | VString _ | VError _ _ => True
  | _ => False
  end ->
  exists m, toString e = Return (VString m).
Proof. destruct e; intros []; eexists; reflexivity. Qed.

(** Every failure whose [toString()] returns ends in the envelope: one line
    on standard error, nothing on standard output, status 1. *)
Lemma caught_failure_envelope (argv : list string) readFileSync decode p e m :
  nth_error argv 2 = Some p -> p <> "" ->
  try_throws readFileSync decode p e ->
  toString e = Return (VString m) ->
  let r := run argv readFileSync decode in
  writes (snd r) = [(stderr, error_object m ++ nl)]
  /\ fst r = Exit 1.
Proof.
  intros Ha Hp Ht Hm r. subst r.
  now rewrite (run_caught argv readFileSync decode p e m).
Qed.

(** Unless the script ends on an uncaught value, it writes exactly once, a
    text that is not empty, so exactly one of the two streams is not
    empty. *)
Lemma one_write_unless_uncaught (argv : list string) readFileSync decode :
  let r := run argv readFileSync decode in
  uncaught (fst r) = false ->
  exists to text,
    writes (snd r) = [(to, text)] /\ text <> ""
    /\ written to (snd r) = text
    /\ forall other, other <> to -> written other (snd r) = "".
Proof.
  intros r. subst r.
  destruct (run_cases argv readFileSync decode)
    as [[_ Hrun]|[p [Ha [Hp [[x Hrun]|[[e [m [_ [_ Hrun]]]]|[e [e' [_ [_ Hrun]]]]]]]]]];
    rewrite Hrun; simpl; try discriminate; intros _.
  - exists stderr, (envelope no_input). repeat split; try discriminate.
    intros [] H; [reflexivity | now elim H].
  - exists stdout, (display x ++ nl).
    rewrite append_nil_r. repeat split; [apply line_not_empty|].
    intros [] H; [now elim H | reflexivity].
  - exists stderr, (envelope m).
    rewrite append_nil_r. repeat split; [apply line_not_empty|].
    intros [] H; [reflexivity | now elim H].
Qed.

(** The script ends on an uncaught value only when [e.toString()] throws
    in the handler; it has then written nothing. *)
Lemma uncaught_only_from_handler (argv : list string) readFileSync decode :
  let r := run argv readFileSync decode in
  uncaught (fst r) = true ->
  exists p e e',
    try_throws readFileSync decode p e
    /\ toString e = Raise e'
    /\ r = (Throw e', [FsRead p]).
Proof.
  intros r. subst r.
  destruct (run_cases argv readFileSync decode)
    as [[_ Hrun]|[p [Ha [Hp [[x Hrun]|[[e [m [_ [_ Hrun]]]]|[e [e' [Ht [Hm Hrun]]]]]]]]]];
    rewrite Hrun; simpl; try discriminate; intros _.
  now exists p, e, e'.
Qed.

(** C5. The claim fails on a decoder that throws [undefined]: the handler's
    [e.toString()] throws before [console.error] is reached, so the script
    performs the read and no output write at all, on either stream, and
    ends on the uncaught [TypeError]. *)
Theorem undefined_throw_writes_nothing :
  let r := run argv_file disk decode_throws_undefined in
  snd r = [FsRead "notam.txt"]
  /\ writes (snd r) = []
  /\ written stdout (snd r) = ""
  /\ written stderr (snd r) = ""
  /\ uncaught (fst r) = true.
Proof. repeat split. Qed.

(** C6. With a decoder that throws [null], the failure is not turned into
    the envelope: the handler's [e.toString()] throws a [TypeError] that
    nothing catches, after the read and before any write, so the script
    ends uncaught and standard error carries no envelope line. *)
Theorem null_throw_escapes_handler :
  let r := run argv_file disk decode_throws_null in
  fst r = Throw (TypeError "Cannot read properties of null (reading 'toString')")
  /\ snd r = [FsRead "notam.txt"]
  /\ uncaught (fst r) = true
  /\ forall m, written stderr (snd r) <> envelope m.
Proof.
  repeat split.
  intros m H. change ("" = error_object m ++ nl) in H.
  symmetry in H. now apply line_not_empty in H.
Qed.

(* ================================================================== *)
(** ** Further properties of the script *)
(* ================================================================== *)

(** *** Every run, with what led to it *)

Lemma try_block_cases readFileSync decode (p : string) :
  (exists T V x,
      readFileSync p = FileText T /\ decode T = Return V
      /\ JSON_stringify V = Return x)
  \/ exists e, try_throws readFileSync decode p e.
Proof.
  destruct (readFileSync p) as [T|name message] eqn:Hr.
  - destruct (decode T) as [V|e] eqn:Hd.
    + destruct (JSON_stringify V) as [x|e] eqn:Hs.
      * left. now exists T, V, x.
      * right. exists e. now apply (stringify_throws _ _ _ _ T V).
    + right. exists e. now apply (decode_throws _ _ _ _ T).
  - right. exists (VError name message).
    now apply (read_throws _ _ _ _ name message).
Qed.

Lemma run_inversion (argv : list string) readFileSync decode :
  let r := run argv readFileSync decode in
  (falsy (nth_error argv 2) = true
   /\ r = (Exit 1, [Write stderr (envelope no_input)]))
  \/ exists p, nth_error argv 2 = Some p /\ p <> "" /\
       ((exists T V x,
            readFileSync p = FileText T /\ decode T = Return V
            /\ JSON_stringify V = Return x
            /\ r = (Normal tt, [FsRead p; Write stdout (display x ++ nl)]))
        \/ (exists e message,
              try_throws readFileSync decode p e
              /\ toString e = Return (VString message)
              /\ r = (Exit 1, [FsRead p; Write stderr (envelope message)]))
        \/ (exists e e',
              try_throws readFileSync decode p e
              /\ toString e = Raise e'
              /\ r = (Throw e', [FsRead p]))).
Proof.
  intros r. subst r.
  destruct (falsy (nth_error argv 2)) eqn:Hguard.
  { left. split; [reflexivity | now apply run_guard]. }
  right. destruct (nth_error argv 2) as [p|] eqn:Ha; [|discriminate Hguard].
  assert (Hp : p <> "") by (now apply String.eqb_neq).
  exists p. split; [reflexivity|]. split; [exact Hp|].
  destruct (try_block_cases readFileSync decode p)
    as [[T [V [x [Hr [Hd Hs]]]]]|[e Ht]].
  - left. exists T, V, x. repeat split; try assumption.
    now apply (run_success argv readFileSync decode p T V x).
  - right. destruct (toString e) as [v|e'] eqn:Hm.
    + destruct (toString_returns_string e v Hm) as [message ->].
      left. exists e, message. repeat split; try assumption.
      now apply (run_caught argv readFileSync decode p e message).
    + right. exists e, e'. repeat split; try assumption.
      now apply (run_handler_throws argv readFileSync decode p e e').
Qed.

(** *** What the script looks at *)

(** X1. Only [process.argv[2]] matters: two command lines with the same
    third element, whatever the interpreter path, the script path and the
    arguments after the third, give the same run. *)
Theorem other_arguments_ignored (argv1 argv2 : list string) readFileSync decode :
  nth_error argv1 2 = nth_error argv2 2 ->
  run argv1 readFileSync decode = run argv2 readFileSync decode.
Proof.
  intros H. unfold run, wrapper, process_argv. now rewrite H.
Qed.

Lemma other_arguments_ignored_witness :
  run argv_file disk decode_raw = run argv_long disk decode_raw.
Proof.
  apply (other_arguments_ignored argv_file argv_long disk decode_raw).
  reflexivity.
Defined.

(** X2. A non-empty path argument is handed to the file system as it is,
    exactly once, before anything else happens, whatever the file system
    and the decoder do. *)
Theorem path_read_exactly_once (argv : list string) readFileSync decode p :
  nth_error argv 2 = Some p -> p <> "" ->
  let t := snd (run argv readFileSync decode) in
  reads t = [p] /\ exists rest, t = FsRead p :: rest.
Proof.
  intros Ha Hp t. subst t.
  destruct (run_inversion argv readFileSync decode)
    as [[Hg _]|[q [Hq [_ Hrun]]]].
  { rewrite Ha in Hg. rewrite (falsy_path p Hp) in Hg. discriminate Hg. }
  rewrite Ha in Hq. injection Hq as <-.
  destruct Hrun as [[T [V [x [_ [_ [_ Hrun]]]]]]
                   |[[e [m [_ [_ Hrun]]]]|[e [e' [_ [_ Hrun]]]]]];
    rewrite Hrun; cbn [snd reads]; split; try reflexivity; eexists; reflexivity.
Qed.

Lemma path_read_exactly_once_witness :
  let t := snd (run argv_file empty_disk decode_throws_null) in
  reads t = ["notam.txt"] /\ exists rest, t = FsRead "notam.txt" :: rest.
Proof.
  apply (path_read_exactly_once argv_file empty_disk decode_throws_null
           "notam.txt"); [reflexivity | discriminate].
Defined.

(** X3. The decoder is consulted on the text of the input file only: two
    decoders that agree on that text give the same run, and when the read
    fails the decoder plays no part at all. *)
Theorem decoder_sees_only_file_text (argv : list string) readFileSync d1 d2 :
  (forall p T, nth_error argv 2 = Some p -> readFileSync p = FileText T ->
               d1 T = d2 T) ->
  run argv readFileSync d1 = run argv readFileSync d2.
Proof.
  intros Hd. unfold run, wrapper, process_argv.
  destruct (nth_error argv 2) as [p|] eqn:Ha; [|reflexivity].
  destruct (falsy (Some p)); [reflexivity|].
  script. destruct (readFileSync p) as [T|name message] eqn:Hr; [|reflexivity].
  script. now rewrite (Hd p T eq_refl Hr).
Qed.

Lemma decoder_sees_only_file_text_witness :
  run argv_file disk decode_raw = run argv_file disk decode_raw_only_notam.
Proof.
  apply (decoder_sees_only_file_text argv_file disk decode_raw
           decode_raw_only_notam).
  intros p T Hp Hr. simpl in Hp. injection Hp as <-.
  simpl in Hr. injection Hr as <-. reflexivity.
Defined.

(** *** Status and streams *)

(** X4. The exit status is 0 or 1 and tells which stream was used: with
    status 0 the output is on standard output and the script wrote nothing
    to standard error; with status 1 standard output is empty. *)
Theorem status_tells_stream (argv : list string) readFileSync decode :
  let r := run argv readFileSync decode in
  (exit_status (fst r) = 0%Z
   /\ written stdout (snd r) <> "" /\ written stderr (snd r) = "")
  \/ (exit_status (fst r) = 1%Z /\ written stdout (snd r) = "").
Proof.
  intros r. subst r.
  destruct (run_inversion argv readFileSync decode)
    as [[_ Hrun]|[p [_ [_ [[T [V [x [_ [_ [_ Hrun]]]]]]
                          |[[e [m [_ [_ Hrun]]]]|[e [e' [_ [_ Hrun]]]]]]]]]];
    rewrite Hrun; cbn [fst snd exit_status written].
  - right. split; reflexivity.
  - left. rewrite append_nil_r.
    split; [reflexivity|]. split; [apply line_not_empty | reflexivity].
  - right. split; reflexivity.
  - right. split; reflexivity.
Qed.

(** X5. Whatever appears on standard output is the printed form of
    [JSON.stringify] applied to what the decoder returned for the text of
    the input file: output there implies that the read, the decoding and
    the serialization all went through, and that the script ran to its end
    without calling [process.exit]. *)
Theorem stdout_is_decoded_value (argv : list string) readFileSync decode :
  let r := run argv readFileSync decode in
  written stdout (snd r) <> "" ->
  exists p T V x,
    nth_error argv 2 = Some p /\ p <> ""
    /\ readFileSync p = FileText T
    /\ decode T = Return V
    /\ JSON_stringify V = Return x
    /\ written stdout (snd r) = display x ++ nl
    /\ fst r = Normal tt.
Proof.
  intros r. subst r.
  destruct (run_inversion argv readFileSync decode)
    as [[_ Hrun]|[p [Ha [Hp [[T [V [x [Hr [Hd [Hs Hrun]]]]]]
                          |[[e [m [_ [_ Hrun]]]]|[e [e' [_ [_ Hrun]]]]]]]]]];
    rewrite Hrun; cbn [fst snd written]; intros Hout;
    try (now elim Hout).
  exists p, T, V, x. rewrite append_nil_r. now repeat split.
Qed.

Lemma stdout_is_decoded_value_witness :
  let r := run argv_file disk decode_two_lines in
  exists p T V x,
    nth_error argv_file 2 = Some p /\ p <> ""
    /\ disk p = FileText T
    /\ decode_two_lines T = Return V
    /\ JSON_stringify V = Return x
    /\ written stdout (snd r) = display x ++ nl
    /\ fst r = Normal tt.
Proof.
  apply (stdout_is_decoded_value argv_file disk decode_two_lines).
  discriminate.
Defined.

(** X6. The guard and a failed read never end the script on an uncaught
    value: the script ends uncaught only after the input file was read
    successfully, and then it has written nothing and the exit status
    is 1. *)
Theorem uncaught_only_after_read (argv : list string) readFileSync decode :
  let r := run argv readFileSync decode in
  uncaught (fst r) = true ->
  exists p T,
    nth_error argv 2 = Some p /\ p <> ""
    /\ readFileSync p = FileText T
    /\ snd r = [FsRead p]
    /\ exit_status (fst r) = 1%Z.
Proof.
  intros r. subst r.
  destruct (run_inversion argv readFileSync decode)
    as [[_ Hrun]|[p [Ha [Hp [[T [V [x [_ [_ [_ Hrun]]]]]]
                          |[[e [m [_ [_ Hrun]]]]|[e [e' [Ht [Hm Hrun]]]]]]]]]];
    rewrite Hrun; cbn [fst snd uncaught exit_status];
    try discriminate; intros _.
  destruct Ht as [name message Hr ->|T Hr Hd|T V Hr Hd Hs].
  - discriminate Hm.
  - exists p, T. now repeat split.
  - exists p, T. now repeat split.
Qed.

Lemma uncaught_only_after_read_witness :
  let r := run argv_file disk decode_throws_null in
  exists p T,
    nth_error argv_file 2 = Some p /\ p <> ""
    /\ disk p = FileText T
    /\ snd r = [FsRead p]
    /\ exit_status (fst r) = 1%Z.
Proof.
  apply (uncaught_only_after_read argv_file disk decode_throws_null).
  reflexivity.
Defined.

(** *** What the handler reports for a thrown string *)

(** X7. A string thrown by the decoder is reported as it is, without any
    prefix: the line on standard error is [{"error":<that string>}]. *)
Theorem thrown_string_reported_verbatim
    (argv : list string) readFileSync decode p T M :
  nth_error argv 2 = Some p -> p <> "" ->
  readFileSync p = FileText T ->
  decode T = Raise (VString M) ->
  run argv readFileSync decode
  = (Exit 1, [FsRead p; Write stderr (error_object M ++ nl)]).
Proof.
  intros Ha Hp Hr Hd.
  apply (run_caught argv readFileSync decode p (VString M) M);
    try assumption; try reflexivity.
  now apply (decode_throws _ _ _ _ T).
Qed.

Lemma thrown_string_reported_verbatim_witness :
  run argv_file disk decode_throws_string
  = (Exit 1, [FsRead "notam.txt"; Write stderr (error_object "bad Q-line" ++ nl)]).
Proof.
  apply (thrown_string_reported_verbatim argv_file disk decode_throws_string
           "notam.txt" "A1234/20 NOTAMN" "bad Q-line");
    [reflexivity | discriminate | reflexivity | reflexivity].
Defined.

(** *** One line per run *)

Lemma no_control_app (a b : string) :
  no_control (a ++ b) = no_control a && no_control b.
Proof.
  induction a as [|c a IH]; simpl; [reflexivity|].
  now rewrite IH, andb_assoc.
Qed.

Lemma no_control_quote_unit (c : ascii) : no_control (quote_unit c) = true.
Proof. destruct c as [[] [] [] [] [] [] [] []]; reflexivity. Qed.

Lemma no_control_quote (s : string) : no_control (QuoteJSONString s) = true.
Proof.
  unfold QuoteJSONString. rewrite !no_control_app.
  assert (H : no_control (quote_units s) = true).
  { induction s as [|c s IH]; simpl; [reflexivity|].
    now rewrite no_control_app, no_control_quote_unit, IH. }
  now rewrite H.
Qed.

Lemma no_control_decimal (n : Z) : no_control (decimal n) = true.
Proof.
  assert (H : forall d, no_control (NilEmpty.string_of_uint d) = true).
  { induction d; simpl; auto. }
  assert (H0 : forall d, no_control (NilZero.string_of_uint d) = true).
  { intros d. destruct d; try reflexivity; apply (H (_ d)). }
  unfold decimal, NilZero.string_of_int.
  destruct (Z.to_int n) as [d|d]; [apply H0|].
  simpl. apply H0.
Qed.

Lemma no_control_concat (l : list string) :
  Forall (fun s => no_control s = true) l ->
  no_control (String.concat "," l) = true.
Proof.
  induction 1 as [|s l Hs Hl IH]; [reflexivity|].
  destruct l as [|s' l']; [exact Hs|].
  change (no_control (s ++ "," ++ String.concat "," (s' :: l')) = true).
  now rewrite !no_control_app, Hs, IH.
Qed.

Lemma no_control_member (P s : string) :
  no_control s = true ->
  no_control (QuoteJSONString P ++ ":" ++ s) = true.
Proof.
  intros Hs. rewrite no_control_app, no_control_quote. simpl. exact Hs.
Qed.

(** The text [JSON.stringify] returns holds no control character, whatever
    the strings inside the value. *)
Lemma stringify_no_control (v : value) (s : string) :
  JSON_stringify v = Return (Some s) -> no_control s = true.
Proof.
  unfold JSON_stringify. revert v s.
  fix IH 1. intros v s.
  destruct v as [ | | b | n | n | s0 | xs | ps | name message ];
    simpl; try discriminate.
  - intros H. now injection H as <-.
  - intros H. injection H as <-. now destruct b.
  - intros H. injection H as <-. apply no_control_decimal.
  - intros H. injection H as <-. apply no_control_quote.
  - match goal with |- context [?f xs] => set (items := f) end.
    assert (Hitems : forall l, items xs = Return l ->
                       Forall (fun s => no_control s = true) l).
    { induction xs as [|x xs IHxs]; intros l; simpl.
      - intros H. injection H as <-. constructor.
      - destruct (SerializeJSONProperty x) as [strP|e1] eqn:Ex; simpl;
          [|discriminate].
        destruct (items xs) as [more|e2]; simpl; [|discriminate].
        intros H. injection H as <-. constructor; [|now apply IHxs].
        destruct strP as [s1|]; [now apply (IH x)|reflexivity]. }
    destruct (items xs) as [partial|e1]; simpl; [|discriminate].
    intros H. injection H as <-.
    specialize (Hitems partial eq_refl).
    cbn [append no_control]. rewrite no_control_app.
    now rewrite (no_control_concat partial Hitems).
  - match goal with |- context [?f ps] => set (members := f) end.
    assert (Hmembers : forall l, members ps = Return l ->
                         Forall (fun s => no_control s = true) l).
    { induction ps as [|[P x] ps IHps]; intros l; simpl.
      - intros H. injection H as <-. constructor.
      - destruct (SerializeJSONProperty x) as [strP|e1] eqn:Ex; simpl;
          [|discriminate].
        destruct (members ps) as [more|e2]; simpl; [|discriminate].
        intros H. injection H as <-.
        destruct strP as [s1|]; [|now apply IHps].
        constructor; [|now apply IHps].
        apply no_control_member. now apply (IH x). }
    destruct (members ps) as [partial|e1]; simpl; [|discriminate].
    intros H. injection H as <-.
    specialize (Hmembers partial eq_refl).
    cbn [append no_control]. rewrite no_control_app.
    now rewrite (no_control_concat partial Hmembers).
  - intros H. now injection H as <-.
Qed.

Lemma error_object_no_control (m : string) :
  no_control (error_object m) = true.
Proof.
  apply (stringify_no_control (VObject [("error", VString m)])).
  apply stringify_error_object.
Qed.

(** X9. Every text the script writes is exactly one line: it ends in a line
    feed and before that holds no control character at all (no other line
    feed, no carriage return, no escape), whatever occurs in the strings of
    the decoded value or in the reported message. *)
Theorem every_write_is_one_line (argv : list string) readFileSync decode :
  Forall (fun w => exists body, snd w = body ++ nl /\ no_control body = true)
         (writes (snd (run argv readFileSync decode))).
Proof.
  destruct (run_inversion argv readFileSync decode)
    as [[_ Hrun]|[p [_ [_ [[T [V [x [_ [_ [Hs Hrun]]]]]]
                          |[[e [m [_ [_ Hrun]]]]|[e [e' [_ [_ Hrun]]]]]]]]]];
    rewrite Hrun; cbn [snd writes]; repeat constructor.
  - exists (error_object no_input). split; reflexivity.
  - exists (display x). split; [reflexivity|].
    destruct x as [s|]; [|reflexivity].
    now apply (stringify_no_control V s).
  - exists (error_object m). split; [reflexivity|].
    apply error_object_no_control.
Qed.

(** *** The message can be read back *)

Lemma unquote_quote_unit (c : ascii) (rest : string) :
  unquote_units (quote_unit c ++ rest) = String c (unquote_units rest).
Proof. destruct c as [[] [] [] [] [] [] [] []]; reflexivity. Qed.

Lemma unquote_quote_units (s rest : string) :
  unquote_units (quote_units s ++ dq ++ rest) = s.
Proof.
  induction s as [|c s IH]; [reflexivity|].
  cbn [quote_units]. rewrite append_assoc, unquote_quote_unit.
  now rewrite IH.
Qed.

Lemma envelope_shape (m : string) :
  envelope m
  = ("{" ++ dq ++ "error" ++ dq ++ ":" ++ dq)
    ++ quote_units m ++ dq ++ "}" ++ nl.
Proof.
  unfold envelope, error_object, QuoteJSONString.
  now rewrite !append_assoc.
Qed.

(** X10. The line printed for a failure determines the message: two
    messages with the same line are the same message, so the quoting of
    [JSON.stringify] (double quotes, backslashes, control characters)
    loses nothing of what [e.toString()] gave. *)
Theorem envelope_injective (m1 m2 : string) :
  envelope m1 = envelope m2 -> m1 = m2.
Proof.
  intros H. rewrite !envelope_shape in H.
  cbn [append dq chr ascii_of_nat] in H.
  assert (Htail : quote_units m1 ++ dq ++ "}" ++ nl
                  = quote_units m2 ++ dq ++ "}" ++ nl).
  { injection H as H. exact H. }
  apply (f_equal unquote_units) in Htail.
  now rewrite !unquote_quote_units in Htail.
Qed.

Lemma envelope_injective_witness :
  Error_prototype_toString "SyntaxError" ("bad" ++ nl ++ "Q-line")
  = "SyntaxError: bad" ++ nl ++ "Q-line".
Proof.
  apply (envelope_injective
           (Error_prototype_toString "SyntaxError" ("bad" ++ nl ++ "Q-line"))
           ("SyntaxError: bad" ++ nl ++ "Q-line")).
  reflexivity.
Defined.

(** *** [process.exit] *)

(** X11. The script calls [process.exit] with no other code than 1, and only
    right after its single write, which is then an envelope line on
    standard error. *)
Theorem exit_only_after_envelope (argv : list string) readFileSync decode code :
  fst (run argv readFileSync decode) = Exit code ->
  code = 1%Z
  /\ exists m,
       writes (snd (run argv readFileSync decode))
       = [(stderr, error_object m ++ nl)].
Proof.
  destruct (run_inversion argv readFileSync decode)
    as [[_ Hrun]|[p [_ [_ [[T [V [x [_ [_ [_ Hrun]]]]]]
                          |[[e [m [_ [_ Hrun]]]]|[e [e' [_ [_ Hrun]]]]]]]]]];
    rewrite Hrun; cbn [fst snd writes]; intros H; try discriminate H;
    injection H as <-; (split; [reflexivity|]).
  - now exists no_input.
  - now exists m.
Qed.

Lemma exit_only_after_envelope_witness :
  1%Z = 1%Z
  /\ exists m,
       writes (snd (run argv_file empty_disk decode_raw))
       = [(stderr, error_object m ++ nl)].
Proof.
  apply (exit_only_after_envelope argv_file empty_disk decode_raw 1).
  reflexivity.
Defined.
